(** * luvemix-rust: CPU state, status flags, sparse memory and the bus cycle

    Shallow embedding of [src/main.rs].  Rust [u8]/[u16] values are [Z]s;
    bit operations are [Z.land], [Z.lor], [Z.shiftr] and the [u8] complement
    [!x] is written out as [u8_not].  The [HashMap<Address, Data>] of
    [CheapoMemory] is a stdpp [gmap Z Z]. *)

From stdpp Require Import base gmap list.
From Stdlib Require Import ZArith Lia.

Open Scope Z_scope.

(** ** mod types *)

Module Types.

(** [pub const DATA_WIDTH: u8 = 8;] *)
Definition DATA_WIDTH : Z := 8.

(** A value of type [u8] (the [Byte]/[Data]/[Flags] aliases). *)
Definition is_u8 (x : Z) : bool := (0 <=? x) && (x <? 256).

(** [!x] on a [u8]: bitwise complement within 8 bits. *)
Definition u8_not (x : Z) : Z := Z.land (Z.lnot x) 255.

(** [a - b] on [u8] with debug-mode overflow checking ([None] = panic). *)
Definition u8_checked_sub (x y : Z) : option Z :=
  if y <=? x then Some (x - y) else None.

(** [x >> s] on [u8] with debug-mode shift checking ([None] = panic:
    shift amount not below the bit width). *)
Definition u8_checked_shr (x s : Z) : option Z :=
  if (0 <=? s) && (s <? 8) then Some (Z.shiftr x s) else None.

End Types.

Import Types.

(** ** mod cpu: flags and CpuState *)

Inductive Flag := ZRO | NEG.

(** [Flag::to_mask]: the enum discriminant as [Flags]. *)
Definition to_mask (f : Flag) : Z :=
  match f with
  | ZRO => 2   (* 0b0000_0010 *)
  | NEG => 128 (* 0b1000_0000 *)
  end.

Record CpuState := mkCpuState {
  pc : Z;   (* Address *)
  sp : Z;   (* Address *)
  a : Z;    (* Data *)
  sr : Z;   (* Flags, private *)
  ir : Z;   (* Data *)
  mar : Z;  (* Address *)
  mdr : Z   (* Data *)
}.

(** [CpuState::new] *)
Definition CpuState_new : CpuState :=
  {| sr := 0; pc := 0; sp := 0; a := 0; ir := 0; mar := 0; mdr := 0 |}.

(** [CpuState::get_flag]: [self.sr & flag.to_mask() != 0] *)
Definition get_flag (st : CpuState) (flag : Flag) : bool :=
  negb (Z.land (sr st) (to_mask flag) =? 0).

(** [CpuState::set_flag] *)
Definition set_flag (st : CpuState) (flag : Flag) (val : bool) : CpuState :=
  let mask := to_mask flag in
  let flag_val := if val then Z.lor (sr st) mask
                  else Z.land (sr st) (u8_not mask) in
  {| pc := pc st; sp := sp st; a := a st; sr := flag_val;
     ir := ir st; mar := mar st; mdr := mdr st |}.

(** [self.a = val;] *)
Definition assign_a (st : CpuState) (val : Z) : CpuState :=
  {| pc := pc st; sp := sp st; a := val; sr := sr st;
     ir := ir st; mar := mar st; mdr := mdr st |}.

(** [CpuState::set_a] *)
Definition set_a (st : CpuState) (val : Z) : CpuState :=
  let st1 := assign_a st val in
  let st2 := set_flag st1 ZRO (val =? 0) in
  set_flag st2 NEG (Z.shiftr val (DATA_WIDTH - 1) >? 0).

(** [CpuState::set_a] with the arithmetic of [val >> DATA_WIDTH - 1] run
    under Rust's overflow checks: [None] is a panic. *)
Definition set_a_checked (st : CpuState) (val : Z) : option CpuState :=
  let st1 := assign_a st val in
  let st2 := set_flag st1 ZRO (val =? 0) in
  match u8_checked_sub DATA_WIDTH 1 with
  | None => None
  | Some s =>
      match u8_checked_shr val s with
      | None => None
      | Some sh => Some (set_flag st2 NEG (sh >? 0))
      end
  end.

(** ** Memory and CheapoMemory *)

Record CheapoMemory := mkCheapoMemory { map : gmap Z Z }.

(** [CheapoMemory::new] *)
Definition CheapoMemory_new : CheapoMemory := {| map := ∅ |}.

(** [<CheapoMemory as Memory>::read] *)
Definition read (m : CheapoMemory) (addr : Z) : option Z :=
  match map m !! addr with
  | None => None
  | Some data => Some data
  end.

(** [<CheapoMemory as Memory>::write] *)
Definition write (m : CheapoMemory) (addr val : Z) : CheapoMemory :=
  {| map := <[addr := val]> (map m) |}.

(** ** Bus-mode Cpu *)

Inductive BusMode := READ | WRITE.

Record Cpu := mkCpu {
  state : CpuState;
  addr_bus : Z;
  data_bus : Z;
  rwb : BusMode
}.

(** [Cpu::new] *)
Definition Cpu_new : Cpu :=
  let st := CpuState_new in
  let addr := mar st in
  let data := mdr st in
  {| state := st; addr_bus := addr; data_bus := data; rwb := READ |}.

(** [Cpu::setup_cycle] *)
Definition setup_cycle (c : Cpu) : Cpu :=
  let c1 := {| state := state c; addr_bus := 255; data_bus := data_bus c;
               rwb := rwb c |} in
  let c2 := {| state := state c1; addr_bus := addr_bus c1; data_bus := 42;
               rwb := rwb c1 |} in
  {| state := state c2; addr_bus := addr_bus c2; data_bus := data_bus c2;
     rwb := WRITE |}.

(** [Cpu::complete_cycle] *)
Definition complete_cycle (c : Cpu) : Cpu :=
  let data := data_bus c in
  {| state := set_a (state c) data; addr_bus := addr_bus c;
     data_bus := data_bus c; rwb := rwb c |}.

(** The bus service of [main]: read or write memory according to [rwb].
    The [unwrap] of a read of an unset address is a panic ([None]). *)
Definition service (c : Cpu) (mem : CheapoMemory) : option (Cpu * CheapoMemory) :=
  match rwb c with
  | READ =>
      match read mem (addr_bus c) with
      | None => None
      | Some v => Some ({| state := state c; addr_bus := addr_bus c;
                           data_bus := v; rwb := rwb c |}, mem)
      end
  | WRITE => Some (c, write mem (addr_bus c) (data_bus c))
  end.

(** ** Public operations on a [CpuState], for sequences of calls *)

Inductive StateOp :=
  | OpSetFlag (f : Flag) (v : bool)
  | OpSetA (x : Z)
  | OpGetFlag (f : Flag).

Definition step (st : CpuState) (op : StateOp) : CpuState :=
  match op with
  | OpSetFlag f v => set_flag st f v
  | OpSetA x => set_a st x
  | OpGetFlag _ => st
  end.

Definition run (ops : list StateOp) (st : CpuState) : CpuState :=
  fold_left step ops st.

(** The accumulator/flag invariant of the spec. *)
Definition flags_inv (st : CpuState) : Prop :=
  get_flag st ZRO = (a st =? 0) /\ get_flag st NEG = Z.testbit (a st) 7.

(** Calls that only go through the accumulator load path, with [u8]
    arguments. *)
Definition load_path_only (ops : list StateOp) : bool :=
  forallb (fun op => match op with
                     | OpSetFlag _ _ => false
                     | OpSetA x => is_u8 x
                     | OpGetFlag _ => true
                     end) ops.

(** One bus cycle as [main] drives it: [cpu.setup_cycle()], the bus service
    on [cpu.rwb], then [cpu.complete_cycle()].  [None] is the panic of the
    [unwrap] in the READ branch. *)
Definition cycle (c : Cpu) (mem : CheapoMemory) : option (Cpu * CheapoMemory) :=
  let c1 := setup_cycle c in
  match service c1 mem with
  | None => None
  | Some (c2, mem2) => Some (complete_cycle c2, mem2)
  end.

(** ** Bit-level lemmas *)

(** The bit index of each flag's mask. *)
Definition flag_bit (f : Flag) : Z :=
  match f with ZRO => 1 | NEG => 7 end.

Lemma to_mask_pow2 (f : Flag) : to_mask f = 2 ^ flag_bit f.
Proof. by destruct f. Qed.

Lemma land_pow2_zero (x k : Z) :
  0 <= k -> (Z.land x (2 ^ k) =? 0) = negb (Z.testbit x k).
Proof.
  intros Hk. destruct (Z.testbit x k) eqn:Hb; simpl.
  - apply Z.eqb_neq. intros H0.
    assert (Z.testbit (Z.land x (2 ^ k)) k = true) as Ht.
    { rewrite Z.land_spec, Hb, Z.pow2_bits_true by lia. reflexivity. }
    rewrite H0, Z.testbit_0_l in Ht. discriminate.
  - apply Z.eqb_eq. apply Z.bits_inj_0. intros n.
    rewrite Z.land_spec, Z.pow2_bits_eqb by lia.
    destruct (Z.eqb_spec k n); subst; [rewrite Hb; reflexivity|apply andb_false_r].
Qed.

Lemma get_flag_testbit (st : CpuState) (f : Flag) :
  get_flag st f = Z.testbit (sr st) (flag_bit f).
Proof.
  unfold get_flag. rewrite to_mask_pow2, land_pow2_zero
    by (destruct f; simpl; lia).
  apply negb_involutive.
Qed.

Lemma testbit_u8_high (x i : Z) :
  is_u8 x = true -> 8 <= i -> Z.testbit x i = false.
Proof.
  unfold is_u8. intros Hx Hi. apply andb_true_iff in Hx as [H0 H1].
  apply Z.leb_le in H0. apply Z.ltb_lt in H1.
  destruct (Z.eq_dec x 0) as [->|Hnz]; [apply Z.testbit_0_l|].
  apply Z.bits_above_log2; [lia|].
  assert (Z.log2 x < 8) by (apply Z.log2_lt_pow2; simpl; lia). lia.
Qed.

Ltac bit_cases i :=
  let H := fresh in
  assert (H : i = 0 \/ i = 1 \/ i = 2 \/ i = 3 \/ i = 4 \/ i = 5 \/ i = 6 \/ i = 7)
    by lia;
  repeat destruct H as [H|H]; subst i.

(** Within the eight bits of [sr], [set_flag f v] sets bit [flag_bit f] to
    [v] and leaves the others. *)
Lemma set_flag_bits_low (st : CpuState) (f : Flag) (v : bool) (i : Z) :
  0 <= i < 8 ->
  Z.testbit (sr (set_flag st f v)) i =
  if i =? flag_bit f then v else Z.testbit (sr st) i.
Proof.
  intros Hi. unfold set_flag, u8_not. simpl.
  destruct v.
  - rewrite Z.lor_spec.
    destruct f; simpl; bit_cases i; simpl;
      rewrite ?orb_true_r, ?orb_false_r; reflexivity.
  - rewrite Z.land_spec, Z.land_spec, Z.lnot_spec by lia.
    destruct f; simpl; bit_cases i; simpl;
      rewrite ?andb_true_r, ?andb_false_r; reflexivity.
Qed.

(** On a [u8] status register, the same holds for every bit index. *)
Lemma set_flag_bits (st : CpuState) (f : Flag) (v : bool) (i : Z) :
  is_u8 (sr st) = true ->
  Z.testbit (sr (set_flag st f v)) i =
  if i =? flag_bit f then v else Z.testbit (sr st) i.
Proof.
  intros Hsr.
  destruct (Z.ltb_spec i 0) as [Hneg|Hnn].
  { rewrite !Z.testbit_neg_r by lia.
    replace (i =? flag_bit f) with false
      by (destruct f; simpl; symmetry; apply Z.eqb_neq; lia).
    reflexivity. }
  destruct (Z.ltb_spec i 8) as [Hlt|Hge]; [by apply set_flag_bits_low; lia|].
  rewrite (testbit_u8_high (sr st) i Hsr Hge).
  replace (i =? flag_bit f) with false by (destruct f; simpl; symmetry; apply Z.eqb_neq; lia).
  unfold set_flag, u8_not. simpl. destruct v.
  - rewrite Z.lor_spec, (testbit_u8_high (sr st) i Hsr Hge).
    apply testbit_u8_high; [by destruct f|lia].
  - rewrite Z.land_spec, (testbit_u8_high (sr st) i Hsr Hge). reflexivity.
Qed.

Lemma set_flag_a (st : CpuState) (f : Flag) (v : bool) :
  a (set_flag st f v) = a st.
Proof. reflexivity. Qed.

(** The sign test of [set_a] on a [u8]: [(val >> 7) > 0] is bit 7. *)
Lemma shiftr7_testbit (x : Z) :
  is_u8 x = true -> (Z.shiftr x (DATA_WIDTH - 1) >? 0) = Z.testbit x 7.
Proof.
  unfold is_u8, DATA_WIDTH. intros Hx. apply andb_true_iff in Hx as [H0 H1].
  apply Z.leb_le in H0. apply Z.ltb_lt in H1.
  change (8 - 1) with 7. rewrite Z.shiftr_div_pow2 by lia.
  pose proof (Z.testbit_spec' x 7 ltac:(lia)) as Hs.
  assert (0 <= x / 2 ^ 7 < 2) by (simpl; split; [apply Z.div_pos|apply Z.div_lt_upper_bound]; lia).
  rewrite Z.mod_small in Hs by lia.
  destruct (Z.testbit x 7); simpl in Hs; rewrite <- Hs; reflexivity.
Qed.

Lemma set_a_flags (st : CpuState) (x : Z) :
  is_u8 x = true ->
  a (set_a st x) = x /\
  get_flag (set_a st x) ZRO = (x =? 0) /\
  get_flag (set_a st x) NEG = Z.testbit x 7.
Proof.
  intros Hx. unfold set_a. split; [reflexivity|].
  rewrite !get_flag_testbit, !set_flag_bits_low by (simpl; lia).
  simpl. rewrite shiftr7_testbit by exact Hx. split; reflexivity.
Qed.

Lemma flags_inv_preserved (rest : list StateOp) (st : CpuState) :
  flags_inv st -> load_path_only rest = true -> flags_inv (run rest st).
Proof.
  revert st. induction rest as [|op rest IH]; intros st Hinv Hok; [exact Hinv|].
  simpl in Hok. apply andb_true_iff in Hok as [Hop Hok].
  unfold run. simpl. apply IH; [|exact Hok].
  destruct op as [f v|x|f]; simpl; [discriminate|..|exact Hinv].
  destruct (set_a_flags st x Hop) as (Ha & Hz & Hn).
  unfold flags_inv. rewrite Ha, Hz, Hn. split; reflexivity.
Qed.

(** ** Claims *)

(** C1 (counterexample): the accumulator/flag invariant does not hold at all
    times: a fresh [CpuState] has [a = 0] with ZRO clear, and the public
    [set_flag] sets ZRO while [a = 5]. *)
Lemma C1_invariant_counterexample :
  ~ flags_inv (run [] CpuState_new) /\
  ~ flags_inv (run [OpSetA 5; OpSetFlag ZRO true] CpuState_new).
Proof. unfold flags_inv; split; vm_compute; intros [H _]; discriminate. Qed.

(** C1 (amended): after any sequence of calls, once [set_a] has been called
    with a byte and only [set_a] (with bytes) and [get_flag] follow, ZRO is
    [a == 0] and NEG is bit 7 of [a]. *)
Theorem C1_invariant_after_load (pre : list StateOp) (x : Z) (rest : list StateOp) :
  is_u8 x = true -> load_path_only rest = true ->
  flags_inv (run (pre ++ OpSetA x :: rest) CpuState_new).
Proof.
  intros Hx Hrest. unfold run. rewrite fold_left_app. simpl.
  apply flags_inv_preserved; [|exact Hrest].
  destruct (set_a_flags (fold_left step pre CpuState_new) x Hx) as (Ha & Hz & Hn).
  unfold flags_inv. rewrite Ha, Hz, Hn. split; reflexivity.
Qed.

Lemma C1_invariant_after_load_witness :
  is_u8 128 = true /\ load_path_only [OpGetFlag NEG; OpSetA 0] = true /\
  flags_inv (run ([OpSetFlag ZRO true] ++ OpSetA 128 :: [OpGetFlag NEG; OpSetA 0])
                 CpuState_new).
Proof.
  split; [reflexivity|split; [reflexivity|]].
  apply C1_invariant_after_load; reflexivity.
Defined.

(** C2: [set_a x] on a byte [x] stores [x] in [a], sets ZRO to [x == 0]
    and NEG to [(x & 0x80) != 0], whatever the prior state. *)
Theorem C2_set_a_coupling (st : CpuState) (x : Z) :
  is_u8 x = true ->
  a (set_a st x) = x /\
  get_flag (set_a st x) ZRO = (x =? 0) /\
  get_flag (set_a st x) NEG = negb (Z.land x 128 =? 0).
Proof.
  intros Hx. destruct (set_a_flags st x Hx) as (Ha & Hz & Hn).
  split; [exact Ha|split; [exact Hz|]].
  rewrite Hn. change 128 with (2 ^ 7). rewrite land_pow2_zero by lia.
  symmetry. apply negb_involutive.
Qed.

Lemma C2_set_a_coupling_witness :
  is_u8 200 = true /\
  a (set_a CpuState_new 200) = 200 /\
  get_flag (set_a CpuState_new 200) ZRO = (200 =? 0) /\
  get_flag (set_a CpuState_new 200) NEG = negb (Z.land 200 128 =? 0).
Proof. split; [reflexivity|]. apply C2_set_a_coupling. reflexivity. Defined.

(** C3: the cycle of [main] on a fresh [Cpu] and a fresh [CheapoMemory]:
    setup asserts address 0xFF, data 42 and WRITE; after the write and
    [complete_cycle], [a = 42], ZRO and NEG are clear and address 0xFF
    reads [Some 42]. *)
Theorem C3_fresh_cycle :
  let c1 := setup_cycle Cpu_new in
  addr_bus c1 = 255 /\ data_bus c1 = 42 /\ rwb c1 = WRITE /\
  let mem := write CheapoMemory_new 255 42 in
  let c2 := complete_cycle c1 in
  a (state c2) = 42 /\ get_flag (state c2) ZRO = false /\
  get_flag (state c2) NEG = false /\ read mem 255 = Some 42 /\
  service c1 CheapoMemory_new = Some (c1, mem).
Proof. vm_compute. repeat split. Qed.

(** C4: for distinct flags, [set_flag f1 v] leaves [get_flag f2]; and on a
    status register holding a byte, it changes no bit outside [f1]'s mask. *)
Theorem C4_flag_isolation (f1 f2 : Flag) (st : CpuState) (v : bool) :
  f1 <> f2 ->
  get_flag (set_flag st f1 v) f2 = get_flag st f2 /\
  (is_u8 (sr st) = true -> forall i : Z,
     Z.testbit (to_mask f1) i = false ->
     Z.testbit (sr (set_flag st f1 v)) i = Z.testbit (sr st) i).
Proof.
  intros Hne. split.
  - rewrite !get_flag_testbit, set_flag_bits_low by (destruct f2; simpl; lia).
    replace (flag_bit f2 =? flag_bit f1) with false; [reflexivity|].
    destruct f1, f2; simpl; congruence.
  - intros Hsr i Hi. rewrite set_flag_bits by exact Hsr.
    destruct (Z.eqb_spec i (flag_bit f1)) as [->|]; [|reflexivity].
    rewrite to_mask_pow2, Z.pow2_bits_true in Hi by (destruct f1; simpl; lia).
    discriminate.
Qed.

Lemma C4_flag_isolation_witness :
  ZRO <> NEG /\
  get_flag (set_flag (set_a CpuState_new 128) ZRO true) NEG =
    get_flag (set_a CpuState_new 128) NEG /\
  (is_u8 (sr (set_a CpuState_new 128)) = true -> forall i : Z,
     Z.testbit (to_mask ZRO) i = false ->
     Z.testbit (sr (set_flag (set_a CpuState_new 128) ZRO true)) i =
     Z.testbit (sr (set_a CpuState_new 128)) i).
Proof. split; [discriminate|]. apply C4_flag_isolation. discriminate. Defined.

(** C5: [set_flag f v] followed by [get_flag f] gives back [v]. *)
Theorem C5_flag_roundtrip (f : Flag) (st : CpuState) (v : bool) :
  get_flag (set_flag st f v) f = v.
Proof.
  rewrite get_flag_testbit, set_flag_bits_low by (destruct f; simpl; lia).
  rewrite Z.eqb_refl. reflexivity.
Qed.

(** C6: a write is read back; a second write to the same address replaces
    it. *)
Theorem C6_write_read_last_wins (m : CheapoMemory) (addr v1 v2 : Z) :
  read (write m addr v1) addr = Some v1 /\
  read (write (write m addr v1) addr v2) addr = Some v2.
Proof. unfold read, write; simpl. by rewrite !lookup_insert_eq. Qed.

(** C7: a fresh [CheapoMemory] reads [None] at every address, which is not
    [Some 0]. *)
Theorem C7_fresh_memory_unset (addr : Z) :
  0 <= addr <= 65535 ->
  read CheapoMemory_new addr = None /\ read CheapoMemory_new addr <> Some 0.
Proof. intros _. unfold read; simpl. rewrite lookup_empty. split; [reflexivity|discriminate]. Qed.

Lemma C7_fresh_memory_unset_witness :
  0 <= 65535 <= 65535 /\
  read CheapoMemory_new 65535 = None /\ read CheapoMemory_new 65535 <> Some 0.
Proof. split; [lia|]. apply C7_fresh_memory_unset. lia. Defined.

(** C8: under Rust's overflow checks, [DATA_WIDTH - 1] does not underflow
    and the shift by 7 is below the 8-bit width, so [set_a] never panics:
    the checked run always returns the unchecked result. *)
Theorem C8_set_a_no_panic (st : CpuState) (x : Z) :
  set_a_checked st x = Some (set_a st x).
Proof. reflexivity. Qed.

(** C9: [setup_cycle] leaves the embedded [CpuState] unchanged and only
    writes the three bus lines. *)
Theorem C9_setup_cycle_frame (c : Cpu) :
  state (setup_cycle c) = state c /\
  setup_cycle c = {| state := state c; addr_bus := 255; data_bus := 42;
                     rwb := WRITE |}.
Proof. split; reflexivity. Qed.

(** C10: a write to [addr1] does not change what [addr2 <> addr1] reads. *)
Theorem C10_write_frame (m : CheapoMemory) (addr1 addr2 v : Z) :
  addr1 <> addr2 -> read (write m addr1 v) addr2 = read m addr2.
Proof. intros Hne. unfold read, write; simpl. by rewrite lookup_insert_ne. Qed.

Lemma C10_write_frame_witness :
  (1 : Z) <> 2 /\
  read (write (write CheapoMemory_new 2 7) 1 9) 2 = read (write CheapoMemory_new 2 7) 2.
Proof. split; [discriminate|]. apply C10_write_frame. discriminate. Defined.

(** ** Further properties of the code *)

Lemma u8_of_high_bits (x : Z) :
  (forall i, 8 <= i -> Z.testbit x i = false) -> is_u8 x = true.
Proof.
  intros Hhi.
  assert (Hx : x = Z.land x (Z.ones 8)).
  { apply Z.bits_inj'. intros n Hn. rewrite Z.land_spec.
    destruct (Z.ltb_spec n 8).
    - rewrite Z.ones_spec_low by lia. symmetry. apply andb_true_r.
    - rewrite Z.ones_spec_high, Hhi by lia. reflexivity. }
  rewrite Z.land_ones in Hx by lia.
  pose proof (Z.mod_pos_bound x (2 ^ 8) ltac:(simpl; lia)) as Hb.
  rewrite <- Hx in Hb. simpl in Hb.
  unfold is_u8. apply andb_true_iff; split; [apply Z.leb_le|apply Z.ltb_lt]; lia.
Qed.

Lemma set_flag_u8 (st : CpuState) (f : Flag) (v : bool) :
  is_u8 (sr st) = true -> is_u8 (sr (set_flag st f v)) = true.
Proof.
  intros Hsr. apply u8_of_high_bits. intros i Hi.
  rewrite set_flag_bits by exact Hsr.
  replace (i =? flag_bit f) with false
    by (destruct f; simpl; symmetry; apply Z.eqb_neq; lia).
  apply testbit_u8_high; assumption.
Qed.

Lemma assign_a_u8 (st : CpuState) (x : Z) :
  is_u8 (sr st) = true -> is_u8 (sr (assign_a st x)) = true.
Proof. tauto. Qed.

Lemma set_a_u8 (st : CpuState) (x : Z) :
  is_u8 (sr st) = true -> is_u8 (sr (set_a st x)) = true.
Proof. intros H. unfold set_a. auto using set_flag_u8, assign_a_u8. Qed.

Create HintDb u8db.
#[export] Hint Resolve set_flag_u8 assign_a_u8 set_a_u8 : u8db.

(** Two states are equal when their registers agree and [sr] agrees
    bitwise. *)
Lemma cpu_state_ext (st1 st2 : CpuState) :
  pc st1 = pc st2 -> sp st1 = sp st2 -> a st1 = a st2 -> ir st1 = ir st2 ->
  mar st1 = mar st2 -> mdr st1 = mdr st2 ->
  (forall i, 0 <= i -> Z.testbit (sr st1) i = Z.testbit (sr st2) i) ->
  st1 = st2.
Proof.
  destruct st1, st2; simpl. intros -> -> -> -> -> -> Hb.
  f_equal. apply Z.bits_inj'. exact Hb.
Qed.

Lemma sr_assign_a (st : CpuState) (x : Z) : sr (assign_a st x) = sr st.
Proof. reflexivity. Qed.

Ltac sr_bits :=
  repeat ((rewrite set_flag_bits by (auto with u8db)) || rewrite sr_assign_a).

(** X1: every sequence of public [CpuState] calls from [CpuState::new]
    leaves the status register a byte. *)
Theorem X1_sr_stays_u8 (ops : list StateOp) :
  is_u8 (sr (run ops CpuState_new)) = true.
Proof.
  assert (Hgen : forall st, is_u8 (sr st) = true -> is_u8 (sr (run ops st)) = true).
  { unfold run. induction ops as [|op ops IH]; intros st Hst; cbn [fold_left];
      [exact Hst|].
    apply IH. destruct op; unfold step; auto with u8db. }
  apply Hgen. reflexivity.
Qed.

(** X2: no sequence of public [CpuState] calls changes [pc], [sp], [ir],
    [mar] or [mdr]. *)
Theorem X2_run_frame (ops : list StateOp) (st : CpuState) :
  let st' := run ops st in
  pc st' = pc st /\ sp st' = sp st /\ ir st' = ir st /\
  mar st' = mar st /\ mdr st' = mdr st.
Proof.
  unfold run. revert st. induction ops as [|op ops IH]; intros st; simpl;
    [repeat split|].
  destruct (IH (step st op)) as (H1 & H2 & H3 & H4 & H5).
  rewrite H1, H2, H3, H4, H5. destruct op; repeat split.
Qed.

(** X3: [set_a] leaves every bit of a byte-valued [sr] other than ZRO's
    and NEG's unchanged. *)
Theorem X3_set_a_reserved_bits (st : CpuState) (x i : Z) :
  is_u8 (sr st) = true -> i <> 1 -> i <> 7 ->
  Z.testbit (sr (set_a st x)) i = Z.testbit (sr st) i.
Proof.
  intros Hsr H1 H7. unfold set_a. sr_bits. simpl.
  destruct (Z.eqb_spec i 7); [lia|]. destruct (Z.eqb_spec i 1); [lia|].
  reflexivity.
Qed.

Lemma X3_set_a_reserved_bits_witness :
  is_u8 (sr (set_flag CpuState_new ZRO true)) = true /\ (3 : Z) <> 1 /\ (3 : Z) <> 7 /\
  Z.testbit (sr (set_a (set_flag CpuState_new ZRO true) 200)) 3 =
  Z.testbit (sr (set_flag CpuState_new ZRO true)) 3.
Proof.
  split; [reflexivity|split; [lia|split; [lia|]]].
  apply X3_set_a_reserved_bits; [reflexivity|lia|lia].
Defined.

(** X4: setting the same flag twice is the same as setting it once to the
    second value (on a byte-valued [sr]). *)
Theorem X4_set_flag_last_wins (st : CpuState) (f : Flag) (v1 v2 : bool) :
  is_u8 (sr st) = true ->
  set_flag (set_flag st f v1) f v2 = set_flag st f v2.
Proof.
  intros Hsr. apply cpu_state_ext; try reflexivity.
  intros i _. sr_bits. destruct (i =? flag_bit f); reflexivity.
Qed.

Lemma X4_set_flag_last_wins_witness :
  is_u8 (sr (set_a CpuState_new 0)) = true /\
  set_flag (set_flag (set_a CpuState_new 0) ZRO false) ZRO true =
  set_flag (set_a CpuState_new 0) ZRO true.
Proof. split; [reflexivity|]. apply X4_set_flag_last_wins. reflexivity. Defined.

(** X5: setting two distinct flags can be done in either order (on a
    byte-valued [sr]). *)
Theorem X5_set_flag_commute (st : CpuState) (f1 f2 : Flag) (v1 v2 : bool) :
  is_u8 (sr st) = true -> f1 <> f2 ->
  set_flag (set_flag st f1 v1) f2 v2 = set_flag (set_flag st f2 v2) f1 v1.
Proof.
  intros Hsr Hne. apply cpu_state_ext; try reflexivity.
  intros i _. sr_bits.
  destruct f1, f2; try congruence; simpl;
    destruct (Z.eqb_spec i 1), (Z.eqb_spec i 7); try lia; reflexivity.
Qed.

Lemma X5_set_flag_commute_witness :
  is_u8 (sr CpuState_new) = true /\ ZRO <> NEG /\
  set_flag (set_flag CpuState_new ZRO true) NEG true =
  set_flag (set_flag CpuState_new NEG true) ZRO true.
Proof.
  split; [reflexivity|split; [discriminate|]].
  apply X5_set_flag_commute; [reflexivity|discriminate].
Defined.

Lemma set_a_set_a (st : CpuState) (x y : Z) :
  is_u8 (sr st) = true -> set_a (set_a st x) y = set_a st y.
Proof.
  intros Hsr. apply cpu_state_ext; try reflexivity.
  intros i _. unfold set_a. cbv zeta. sr_bits. simpl.
  destruct (i =? 7); [reflexivity|]. destruct (i =? 1); reflexivity.
Qed.

(** X6: a second [set_a] overrides the first completely (on a byte-valued
    [sr]): no trace of the first load remains. *)
Theorem X6_set_a_last_wins (st : CpuState) (x y : Z) :
  is_u8 (sr st) = true -> set_a (set_a st x) y = set_a st y.
Proof. apply set_a_set_a. Qed.

Lemma X6_set_a_last_wins_witness :
  is_u8 (sr CpuState_new) = true /\
  set_a (set_a CpuState_new 128) 0 = set_a CpuState_new 0.
Proof. split; [reflexivity|]. apply X6_set_a_last_wins. reflexivity. Defined.

(** X7: [complete_cycle] on a byte on the data bus loads it into [a], with
    ZRO and NEG matching it, and leaves the bus lines as they were. *)
Theorem X7_complete_cycle_loads_bus (c : Cpu) :
  is_u8 (data_bus c) = true ->
  let c' := complete_cycle c in
  a (state c') = data_bus c /\ flags_inv (state c') /\
  addr_bus c' = addr_bus c /\ data_bus c' = data_bus c /\ rwb c' = rwb c.
Proof.
  intros Hd. cbn zeta.
  destruct (set_a_flags (state c) (data_bus c) Hd) as (Ha & Hz & Hn).
  unfold complete_cycle; simpl. unfold flags_inv. rewrite Ha, Hz, Hn.
  repeat split.
Qed.

Lemma X7_complete_cycle_loads_bus_witness :
  is_u8 (data_bus (setup_cycle Cpu_new)) = true /\
  let c' := complete_cycle (setup_cycle Cpu_new) in
  a (state c') = data_bus (setup_cycle Cpu_new) /\ flags_inv (state c') /\
  addr_bus c' = addr_bus (setup_cycle Cpu_new) /\
  data_bus c' = data_bus (setup_cycle Cpu_new) /\ rwb c' = rwb (setup_cycle Cpu_new).
Proof. split; [reflexivity|]. apply X7_complete_cycle_loads_bus. reflexivity. Defined.

(** X8: from any CPU and any memory, the cycle of [main] never panics: it
    stores 42 at 0xFF, leaves 42 in [a] with ZRO and NEG clear, leaves the
    bus at 0xFF / 42 / WRITE and changes no other register. *)
Theorem X8_main_cycle (c : Cpu) (mem : CheapoMemory) :
  exists c', cycle c mem = Some (c', write mem 255 42) /\
    a (state c') = 42 /\ get_flag (state c') ZRO = false /\
    get_flag (state c') NEG = false /\
    addr_bus c' = 255 /\ data_bus c' = 42 /\ rwb c' = WRITE /\
    pc (state c') = pc (state c) /\ sp (state c') = sp (state c) /\
    ir (state c') = ir (state c) /\ mar (state c') = mar (state c) /\
    mdr (state c') = mdr (state c).
Proof.
  eexists. split; [reflexivity|].
  unfold complete_cycle, setup_cycle; cbn [state addr_bus data_bus rwb].
  destruct (set_a_flags (state c) 42 eq_refl) as (Ha & Hz & Hn).
  rewrite Ha, Hz, Hn. repeat split.
Qed.

(** X9: a READ service panics (the [unwrap]) on an address never written;
    on a written address it puts the stored byte on the data bus, leaves
    memory and the CPU state alone, and [complete_cycle] then loads that
    byte into [a]. *)
Theorem X9_read_service (c : Cpu) (mem : CheapoMemory) :
  rwb c = READ ->
  (read mem (addr_bus c) = None -> service c mem = None) /\
  (forall v, read mem (addr_bus c) = Some v ->
     exists c', service c mem = Some (c', mem) /\ data_bus c' = v /\
       state c' = state c /\ a (state (complete_cycle c')) = v).
Proof.
  intros Hr. unfold service. rewrite Hr. split.
  - intros Hn. rewrite Hn. reflexivity.
  - intros v Hv. rewrite Hv. eexists. repeat split.
Qed.

Lemma X9_read_service_witness :
  rwb (mkCpu CpuState_new 7 0 READ) = READ /\
  (read (write CheapoMemory_new 7 9) (addr_bus (mkCpu CpuState_new 7 0 READ)) = None ->
   service (mkCpu CpuState_new 7 0 READ) (write CheapoMemory_new 7 9) = None) /\
  (forall v, read (write CheapoMemory_new 7 9) (addr_bus (mkCpu CpuState_new 7 0 READ)) = Some v ->
     exists c', service (mkCpu CpuState_new 7 0 READ) (write CheapoMemory_new 7 9) =
                  Some (c', write CheapoMemory_new 7 9) /\ data_bus c' = v /\
       state c' = state (mkCpu CpuState_new 7 0 READ) /\ a (state (complete_cycle c')) = v).
Proof. split; [reflexivity|]. apply X9_read_service. reflexivity. Defined.

(** X10: bus round trip: a WRITE service followed by a READ service at the
    same address puts the written byte back on the data bus. *)
Theorem X10_write_then_read_service (c1 c2 : Cpu) (mem : CheapoMemory) :
  rwb c1 = WRITE -> rwb c2 = READ -> addr_bus c2 = addr_bus c1 ->
  exists mem' c2', service c1 mem = Some (c1, mem') /\
    service c2 mem' = Some (c2', mem') /\ data_bus c2' = data_bus c1.
Proof.
  intros H1 H2 Ha. unfold service. rewrite H1, H2, Ha.
  eexists. eexists. split; [reflexivity|].
  unfold read, write; cbn [map]. rewrite lookup_insert_eq.
  split; reflexivity.
Qed.

Lemma X10_write_then_read_service_witness :
  rwb (setup_cycle Cpu_new) = WRITE /\ rwb (mkCpu CpuState_new 255 0 READ) = READ /\
  addr_bus (mkCpu CpuState_new 255 0 READ) = addr_bus (setup_cycle Cpu_new) /\
  exists mem' c2', service (setup_cycle Cpu_new) CheapoMemory_new =
      Some (setup_cycle Cpu_new, mem') /\
    service (mkCpu CpuState_new 255 0 READ) mem' = Some (c2', mem') /\
    data_bus c2' = data_bus (setup_cycle Cpu_new).
Proof.
  split; [reflexivity|split; [reflexivity|split; [reflexivity|]]].
  apply X10_write_then_read_service; reflexivity.
Defined.

Lemma write_write_same (m : CheapoMemory) (addr v1 v2 : Z) :
  write (write m addr v1) addr v2 = write m addr v2.
Proof. unfold write; cbn [map]. f_equal. apply insert_insert_eq. Qed.

(** X11: a second write to an address replaces the first: the memory is the
    same as after the second write alone. *)
Theorem X11_write_write_same (m : CheapoMemory) (addr v1 v2 : Z) :
  write (write m addr v1) addr v2 = write m addr v2.
Proof. apply write_write_same. Qed.

(** X12: writes to distinct addresses commute. *)
Theorem X12_write_commute (m : CheapoMemory) (addr1 addr2 v1 v2 : Z) :
  addr1 <> addr2 ->
  write (write m addr1 v1) addr2 v2 = write (write m addr2 v2) addr1 v1.
Proof.
  intros Hne. unfold write; cbn [map]. f_equal.
  apply insert_insert_ne. congruence.
Qed.

Lemma X12_write_commute_witness :
  (1 : Z) <> 2 /\
  write (write CheapoMemory_new 1 10) 2 20 = write (write CheapoMemory_new 2 20) 1 10.
Proof. split; [discriminate|]. apply X12_write_commute. discriminate. Defined.

(** X13: writing back the byte just read from an address leaves the memory
    unchanged. *)
Theorem X13_write_read_back (m : CheapoMemory) (addr v : Z) :
  read m addr = Some v -> write m addr v = m.
Proof.
  unfold read, write. destruct m as [mp]; cbn [map].
  intros Hr. f_equal. apply insert_id.
  destruct (mp !! addr); [exact Hr|discriminate].
Qed.

Lemma X13_write_read_back_witness :
  read (write CheapoMemory_new 5 6) 5 = Some 6 /\
  write (write CheapoMemory_new 5 6) 5 6 = write CheapoMemory_new 5 6.
Proof. split; [reflexivity|]. apply X13_write_read_back. reflexivity. Defined.

(** X14: on a byte-valued status register, [main]'s cycle reaches a fixed
    point after one step: running it again on its result gives the same CPU
    and the same memory. *)
Theorem X14_main_cycle_fixpoint (c c' : Cpu) (mem mem' : CheapoMemory) :
  is_u8 (sr (state c)) = true -> cycle c mem = Some (c', mem') ->
  cycle c' mem' = Some (c', mem').
Proof.
  intros Hsr Hc. unfold cycle in Hc |- *. cbn in Hc.
  injection Hc as <- <-. unfold setup_cycle, complete_cycle, service.
  cbn [state addr_bus data_bus rwb]. rewrite write_write_same.
  rewrite set_a_set_a by exact Hsr. reflexivity.
Qed.

Lemma X14_main_cycle_fixpoint_witness :
  is_u8 (sr (state Cpu_new)) = true /\
  cycle Cpu_new CheapoMemory_new =
    Some (complete_cycle (setup_cycle Cpu_new), write CheapoMemory_new 255 42) /\
  cycle (complete_cycle (setup_cycle Cpu_new)) (write CheapoMemory_new 255 42) =
    Some (complete_cycle (setup_cycle Cpu_new), write CheapoMemory_new 255 42).
Proof.
  split; [reflexivity|]. split; [reflexivity|].
  apply (X14_main_cycle_fixpoint Cpu_new _ CheapoMemory_new); reflexivity.
Defined.
